(** * Search suggestions endpoint ([backend/routes/search.py])

    A shallow embedding of the three-tier suggestion resolver
    ([_google_autocomplete], [_llm_suggestions], [get_search_suggestions])
    and the properties of its fallback chain.

    Conventions of the embedding:
    - a Python [int] is a [Z]; a Python [str] is a [string] whose characters
      are read as code points below 256;
    - a function that may raise returns a [result]; [exn] stands for an
      instance of Python's [Exception], the class both handlers of the
      resolver catch and the one the two client libraries and [json] raise;
    - the two outbound calls are answered by an environment [env], and every
      outbound call and log record is appended to a [trace], the only state
      the code touches. *)

From Stdlib Require Import ZArith List String Ascii Bool Lia DecimalString.
Import ListNotations.
Open Scope string_scope.
Open Scope Z_scope.

Set Warnings "-register-all".

(** ** Python built-ins used by the module *)

Module Py.

(** [str.isspace] on the code points below 256: TAB..CR, FS..US, SPACE,
    NEL and NBSP. *)
Definition isspace (c : ascii) : bool :=
  let n := Z.of_N (N_of_ascii c) in
  ((9 <=? n) && (n <=? 13)) || ((28 <=? n) && (n <=? 32))
  || (n =? 133) || (n =? 160).

Fixpoint lstrip (s : string) : string :=
  match s with
  | String c s' => if isspace c then lstrip s' else s
  | EmptyString => EmptyString
  end.

Fixpoint rstrip (s : string) : string :=
  match s with
  | String c s' =>
      match rstrip s' with
      | EmptyString => if isspace c then EmptyString else String c EmptyString
      | r => String c r
      end
  | EmptyString => EmptyString
  end.

(** [s.strip()] *)
Definition strip (s : string) : string := rstrip (lstrip s).

(** [len(s)] *)
Definition len (s : string) : Z := Z.of_nat (String.length s).

(** Truth value of a [str]: only the empty string is false. *)
Definition truthy (s : string) : bool :=
  match s with EmptyString => false | _ => true end.

(** [s.startswith(c)] for a one-character [c]. *)
Definition startswith (s : string) (c : ascii) : bool :=
  match s with
  | String d _ => Ascii.eqb d c
  | EmptyString => false
  end.

(** [s.find(c)] for a one-character [c]: lowest index, or -1. *)
Fixpoint find (s : string) (c : ascii) : Z :=
  match s with
  | EmptyString => -1
  | String d s' =>
      if Ascii.eqb d c then 0
      else let i := find s' c in if i <? 0 then -1 else i + 1
  end.

(** [s.rfind(c)] for a one-character [c]: highest index, or -1. *)
Fixpoint rfind (s : string) (c : ascii) : Z :=
  match s with
  | EmptyString => -1
  | String d s' =>
      let i := rfind s' c in
      if 0 <=? i then i + 1
      else if Ascii.eqb d c then 0 else -1
  end.

(** [s[a:b]] for [0 <= a], the only way the module slices a [str]. *)
Definition str_slice (s : string) (a b : Z) : string :=
  String.substring (Z.to_nat a) (Z.to_nat (b - a)) s.

(** [xs[:n]] on a list, negative [n] counting from the end. *)
Definition slice_to {A : Type} (n : Z) (xs : list A) : list A :=
  if 0 <=? n then firstn (Z.to_nat n) xs
  else firstn (Z.to_nat (Z.of_nat (List.length xs) + n)) xs.

(** [str(n)] for an [int], as an f-string renders it. *)
Definition str_of_int (n : Z) : string :=
  NilZero.string_of_int (Z.to_int n).

End Py.

(** ** JSON values, as [json.loads] and [Response.json] build them *)

Inductive json : Type :=
| JNull
| JBool (b : bool)
| JNum (literal : string)
| JStr (s : string)
| JArr (items : list json)
| JObj (members : list (string * json)).

(** [[s for s in xs if isinstance(s, str)]] *)
Fixpoint only_strings (xs : list json) : list string :=
  match xs with
  | [] => []
  | JStr s :: xs' => s :: only_strings xs'
  | _ :: xs' => only_strings xs'
  end.

(** ** A reference decoder for JSON text

    [json.loads] belongs to the Python library; the resolver below takes it
    as a parameter.  [JsonRef.loads] is a decoder for the grammar
    [json.loads] accepts over one-byte characters, used to run the resolver
    on concrete response bodies. *)

Module JsonRef.

Definition is_ws (c : ascii) : bool :=
  Ascii.eqb c " " || Ascii.eqb c "009" || Ascii.eqb c "010" || Ascii.eqb c "013".

Fixpoint skip_ws (s : string) : string :=
  match s with
  | String c s' => if is_ws c then skip_ws s' else s
  | EmptyString => EmptyString
  end.

Definition is_digit (c : ascii) : bool :=
  let n := N_of_ascii c in (48 <=? n)%N && (n <=? 57)%N.

Definition hex_digit (c : ascii) : option N :=
  let n := N_of_ascii c in
  if (48 <=? n)%N && (n <=? 57)%N then Some (n - 48)%N
  else if (65 <=? n)%N && (n <=? 70)%N then Some (n - 55)%N
  else if (97 <=? n)%N && (n <=? 102)%N then Some (n - 87)%N
  else None.

(** [\uXXXX]: only code points a [string] character can hold. *)
Definition hex4 (a b c d : ascii) : option ascii :=
  match hex_digit a, hex_digit b, hex_digit c, hex_digit d with
  | Some x, Some y, Some z, Some w =>
      let n := (((x * 16 + y) * 16 + z) * 16 + w)%N in
      if (n <? 256)%N then Some (ascii_of_N n) else None
  | _, _, _, _ => None
  end.

Definition unescape (c : ascii) : option ascii :=
  if Ascii.eqb c "034" then Some "034"%char
  else if Ascii.eqb c "\" then Some "\"%char
  else if Ascii.eqb c "/" then Some "/"%char
  else if Ascii.eqb c "b" then Some "008"%char
  else if Ascii.eqb c "f" then Some "012"%char
  else if Ascii.eqb c "n" then Some "010"%char
  else if Ascii.eqb c "r" then Some "013"%char
  else if Ascii.eqb c "t" then Some "009"%char
  else None.

(** The characters of a string literal after its opening quote, up to the
    closing quote; control characters are refused as in strict mode. *)
Fixpoint scan_string (s : string) : option (string * string) :=
  match s with
  | EmptyString => None
  | String c s' =>
      if Ascii.eqb c "034" then Some (EmptyString, s')
      else if (N_of_ascii c <? 32)%N then None
      else if Ascii.eqb c "\" then
        match s' with
        | String "u" (String h1 (String h2 (String h3 (String h4 s'')))) =>
            match hex4 h1 h2 h3 h4, scan_string s'' with
            | Some d, Some (v, r) => Some (String d v, r)
            | _, _ => None
            end
        | String e s'' =>
            match unescape e, scan_string s'' with
            | Some d, Some (v, r) => Some (String d v, r)
            | _, _ => None
            end
        | EmptyString => None
        end
      else
        match scan_string s' with
        | Some (v, r) => Some (String c v, r)
        | None => None
        end
  end.

Fixpoint span_digits (s : string) : string * string :=
  match s with
  | String c s' =>
      if is_digit c then let (d, r) := span_digits s' in (String c d, r)
      else (EmptyString, s)
  | EmptyString => (EmptyString, EmptyString)
  end.

(** The integer part: a lone zero, or digits not starting with zero. *)
Definition scan_int (s : string) : option (string * string) :=
  match s with
  | String "0" r => Some ("0", r)
  | String c _ => if is_digit c then Some (span_digits s) else None
  | EmptyString => None
  end.

(** The optional fraction: a dot and at least one digit. *)
Definition scan_frac (s : string) : string * string :=
  match s with
  | String "." r =>
      match span_digits r with
      | (EmptyString, _) => (EmptyString, s)
      | (d, r') => (String "." d, r')
      end
  | _ => (EmptyString, s)
  end.

(** The optional exponent: e or E, an optional sign, at least one digit. *)
Definition scan_exp (s : string) : string * string :=
  match s with
  | String e r =>
      if Ascii.eqb e "e" || Ascii.eqb e "E" then
        let (sign, r1) :=
          match r with
          | String "+" r1 => ("+", r1)
          | String "-" r1 => ("-", r1)
          | _ => (EmptyString, r)
          end in
        match span_digits r1 with
        | (EmptyString, _) => (EmptyString, s)
        | (d, r') => (String e (sign ++ d), r')
        end
      else (EmptyString, s)
  | EmptyString => (EmptyString, s)
  end.

Definition scan_number (s : string) : option (string * string) :=
  let (sign, r0) :=
    match s with
    | String "-" r0 => ("-", r0)
    | _ => (EmptyString, s)
    end in
  match scan_int r0 with
  | Some (i, r1) =>
      let (f, r2) := scan_frac r1 in
      let (e, r3) := scan_exp r2 in
      Some (sign ++ i ++ f ++ e, r3)
  | None => None
  end.

(** [s] without the prefix [p], when [s] starts with it. *)
Fixpoint drop_prefix (p s : string) : option string :=
  match p, s with
  | EmptyString, _ => Some s
  | String a p', String b s' => if Ascii.eqb a b then drop_prefix p' s' else None
  | String _ _, EmptyString => None
  end.

Definition scan_constant (s : string) : option (json * string) :=
  match drop_prefix "null" s with Some r => Some (JNull, r) | None =>
  match drop_prefix "true" s with Some r => Some (JBool true, r) | None =>
  match drop_prefix "false" s with Some r => Some (JBool false, r) | None =>
  match drop_prefix "NaN" s with Some r => Some (JNum "NaN", r) | None =>
  match drop_prefix "Infinity" s with Some r => Some (JNum "Infinity", r) | None =>
  match drop_prefix "-Infinity" s with Some r => Some (JNum "-Infinity", r) | None =>
  None end end end end end end.

(** One value at the head of [s]; [elements] and [members] read what
    follows the first item of an array and of an object. *)
Fixpoint value (fuel : nat) (s : string) : option (json * string) :=
  match fuel with
  | O => None
  | S fuel' =>
      match s with
      | String "034" r =>
          match scan_string r with
          | Some (v, r') => Some (JStr v, r')
          | None => None
          end
      | String "[" r =>
          match skip_ws r with
          | String "]" r' => Some (JArr [], r')
          | r' =>
              match elements fuel' r' with
              | Some (xs, r'') => Some (JArr xs, r'')
              | None => None
              end
          end
      | String "{" r =>
          match skip_ws r with
          | String "}" r' => Some (JObj [], r')
          | r' =>
              match members fuel' r' with
              | Some (kvs, r'') => Some (JObj kvs, r'')
              | None => None
              end
          end
      | _ =>
          match scan_constant s with
          | Some res => Some res
          | None =>
              match scan_number s with
              | Some (n, r) => Some (JNum n, r)
              | None => None
              end
          end
      end
  end

with elements (fuel : nat) (s : string) : option (list json * string) :=
  match fuel with
  | O => None
  | S fuel' =>
      match value fuel' s with
      | Some (v, r) =>
          match skip_ws r with
          | String "]" r' => Some ([v], r')
          | String "," r' =>
              match elements fuel' (skip_ws r') with
              | Some (vs, r'') => Some (v :: vs, r'')
              | None => None
              end
          | _ => None
          end
      | None => None
      end
  end

with members (fuel : nat) (s : string) : option (list (string * json) * string) :=
  match fuel with
  | O => None
  | S fuel' =>
      match s with
      | String "034" r =>
          match scan_string r with
          | Some (k, r1) =>
              match skip_ws r1 with
              | String ":" r2 =>
                  match value fuel' (skip_ws r2) with
                  | Some (v, r3) =>
                      match skip_ws r3 with
                      | String "}" r4 => Some ([(k, v)], r4)
                      | String "," r4 =>
                          match members fuel' (skip_ws r4) with
                          | Some (kvs, r5) => Some ((k, v) :: kvs, r5)
                          | None => None
                          end
                      | _ => None
                      end
                  | None => None
                  end
              | _ => None
              end
          | None => None
          end
      | _ => None
      end
  end.

(** The whole text is one value between optional white space. *)
Definition loads (s : string) : option json :=
  match value (2 * String.length s + 2) (skip_ws s) with
  | Some (v, r) =>
      match skip_ws r with
      | EmptyString => Some v
      | _ => None
      end
  | None => None
  end.

End JsonRef.

(** Text between double quotes, as it appears in a JSON document. *)
Definition quoted (s : string) : string :=
  String "034" (s ++ String "034" EmptyString).

(** ** Exceptions, outbound calls and the trace *)

(** An instance of [Exception]: its class name and [str(e)]. *)
Inductive exn : Type :=
| Exception (cls : string) (msg : string).

Definition str_exn (e : exn) : string :=
  match e with Exception _ msg => msg end.

Inductive result (A : Type) : Type :=
| Ok (a : A)
| Raise (e : exn).

Arguments Ok {A} a.
Arguments Raise {A} e.

(** What lines 50-51 produce: [client.get] or [raise_for_status] raised,
    or a response passed both and carries a body. *)
Inductive http_outcome : Type :=
| HttpRaise (e : exn)
| HttpBody (text : string).

Record http_request : Type := mk_http_request {
  url : string;
  params : list (string * string);
  headers : list (string * string)
}.

(** The keyword arguments of [chat.completions.create]; the float
    [temperature] is kept as its source text. *)
Record chat_request : Type := mk_chat_request {
  model : string;
  messages : list (string * string);
  max_tokens : Z;
  temperature : string
}.

(** What line 64 produces: the call raised, or a completion came back
    with the [message.content] of each of its [choices] ([None] for
    Python's [None]). *)
Inductive chat_outcome : Type :=
| ChatRaise (e : exn)
| ChatCompletion (choices : list (option string)).

Record env : Type := mk_env {
  http_get : http_request -> http_outcome;
  chat_create : chat_request -> chat_outcome
}.

Inductive level : Type := WARNING | ERROR.

Inductive event : Type :=
| EvHttpGet (req : http_request)
| EvChatCreate (req : chat_request)
| EvLog (lv : level) (msg : string).

Definition trace : Type := list event.

(** ** The monad of the module: environment, trace, exceptions *)

Definition M (A : Type) : Type := env -> trace -> result A * trace.

Definition ret {A : Type} (a : A) : M A := fun _ t => (Ok a, t).

Definition bind {A B : Type} (m : M A) (k : A -> M B) : M B :=
  fun e t =>
    match m e t with
    | (Ok a, t') => k a e t'
    | (Raise x, t') => (Raise x, t')
    end.

Definition raise {A : Type} (x : exn) : M A := fun _ t => (Raise x, t).

(** [try: m  except Exception as e: h e] *)
Definition try_except {A : Type} (m : M A) (h : exn -> M A) : M A :=
  fun e t =>
    match m e t with
    | (Ok a, t') => (Ok a, t')
    | (Raise x, t') => h x e t'
    end.

Definition emit (ev : event) : M unit := fun _ t => (Ok tt, (t ++ [ev])%list).

Definition lift {A : Type} (r : result A) : M A := fun _ t => (r, t).

Declare Scope py_scope.
Delimit Scope py_scope with py.
Notation "x <- m ;; k" := (bind m (fun x => k))
  (at level 100, m at next level, right associativity) : py_scope.
Notation "m ;;; k" := (bind m (fun _ => k))
  (at level 100, right associativity) : py_scope.
Open Scope py_scope.

(** [await client.get(...)] then [r.raise_for_status()] *)
Definition client_get (req : http_request) : M string :=
  emit (EvHttpGet req) ;;;
  fun e t =>
    match http_get e req with
    | HttpRaise x => (Raise x, t)
    | HttpBody text => (Ok text, t)
    end.

(** [await _llm_client.chat.completions.create(...)] *)
Definition chat_completions_create (req : chat_request) : M (list (option string)) :=
  emit (EvChatCreate req) ;;;
  fun e t =>
    match chat_create e req with
    | ChatRaise x => (Raise x, t)
    | ChatCompletion choices => (Ok choices, t)
    end.

Definition logger_warning (msg : string) : M unit := emit (EvLog WARNING msg).
Definition logger_error (msg : string) : M unit := emit (EvLog ERROR msg).

(** ** The response model *)

Record SuggestionsResponse : Type := mk_SuggestionsResponse {
  suggestions : list string;
  query : string
}.

(** ** The module's functions *)

Section Search.

(** [json.loads] (and [Response.json], which decodes the body with it):
    the decoded value, or the exception it raises. *)
Variable json_loads : string -> result json.

Definition google_url : string :=
  "https://suggestqueries.google.com/complete/search".

Definition google_headers : list (string * string) :=
  [("User-Agent",
    "Mozilla/5.0 (X11; Linux x86_64) AppleWebKit/537.36 (KHTML, like Gecko) Chrome/120 Safari/537.36");
   ("Accept", "application/json,text/plain,*/*")].

Definition google_request (q : string) : http_request :=
  mk_http_request google_url [("client", "chrome"); ("q", q)] google_headers.

(** Lines 54-58: the second element of the decoded array, its strings,
    cut at [limit]; the empty list for any other shape. *)
Definition google_items (data : json) (limit : Z) : list string :=
  match data with
  | JArr l =>
      if 2 <=? Z.of_nat (List.length l) then
        match nth 1 l JNull with
        | JArr d1 =>
            let items := only_strings d1 in
            Py.slice_to limit items
        | _ => []
        end
      else []
  | _ => []
  end.

Definition _google_autocomplete (q : string) (limit : Z) : M (list string) :=
  text <- client_get (google_request q) ;;
  data <- lift (json_loads text) ;;
  ret (google_items data limit).

Definition system_prompt : string :=
  "You are a search suggestion assistant. Given a partial search query, "
  ++ "provide relevant autocomplete suggestions. Return ONLY a JSON array of strings.".

Definition user_prompt (q : string) (limit : Z) : string :=
  "Provide " ++ Py.str_of_int limit ++ " search suggestions for: " ++ quoted q.

Definition llm_request (q : string) (limit : Z) : chat_request :=
  mk_chat_request "gpt-4o-mini"
    [("system", system_prompt); ("user", user_prompt q limit)] 200 "0.7".

(** [response.choices[0].message.content] *)
Definition first_content (choices : list (option string)) : result (option string) :=
  match choices with
  | c :: _ => Ok c
  | [] => Raise (Exception "IndexError" "list index out of range")
  end.

(** [(content or "").strip()] *)
Definition normalise_content (c : option string) : string :=
  Py.strip (match c with
            | Some s => if Py.truthy s then s else EmptyString
            | None => EmptyString
            end).

(** Lines 83-88: the value bound to [arr], or what [json.loads] raised. *)
Definition llm_parse (content : string) : result json :=
  if Py.startswith content "[" then json_loads content
  else
    let start := Py.find content "[" in
    let end_ := Py.rfind content "]" + 1 in
    if (0 <=? start) && (start <? end_)
    then json_loads (Py.str_slice content start end_)
    else Ok (JArr []).

(** Lines 96-102: the list built inside the LLM step. *)
Definition llm_fallback (q : string) (limit : Z) : list string :=
  Py.slice_to limit
    [q ++ " tutorial";
     q ++ " example";
     q ++ " documentation";
     "how to " ++ q;
     q ++ " guide"].

(** Lines 82-102: the [try] block and what follows it. *)
Definition llm_from_content (q : string) (limit : Z) (content : string) : list string :=
  match llm_parse content with
  | Ok (JArr arr) => Py.slice_to limit (only_strings arr)
  | Ok _ => llm_fallback q limit
  | Raise _ => llm_fallback q limit
  end.

Definition _llm_suggestions (q : string) (limit : Z) : M (list string) :=
  choices <- chat_completions_create (llm_request q limit) ;;
  c <- lift (first_content choices) ;;
  let content := normalise_content c in
  ret (llm_from_content q limit content).

(** Lines 137-143: the list built by the resolver itself. *)
Definition final_fallback (q : string) : list string :=
  [q ++ " tutorial";
   q ++ " example";
   q ++ " documentation";
   "how to " ++ q;
   q ++ " guide"].

Definition nonempty {A : Type} (xs : list A) : bool :=
  match xs with [] => false | _ :: _ => true end.

(** A [try] block either returns from the function ([Some]) or falls
    through to the statement after it ([None]). *)
Definition get_search_suggestions (q : string) (limit : Z) : M SuggestionsResponse :=
  if negb (Py.truthy q) || (Py.len (Py.strip q) <? 2) then
    ret (mk_SuggestionsResponse [] q)
  else
    let q := Py.strip q in
    let limit := Z.max 1 (Z.min limit 10) in
    r1 <- try_except
            (suggestions <- _google_autocomplete q limit ;;
             if nonempty suggestions
             then ret (Some (mk_SuggestionsResponse (Py.slice_to limit suggestions) q))
             else ret None)
            (fun e =>
               logger_warning ("Google suggest failed (fallback to LLM): " ++ str_exn e) ;;;
               ret None) ;;
    match r1 with
    | Some r => ret r
    | None =>
        r2 <- try_except
                (suggestions <- _llm_suggestions q limit ;;
                 ret (Some (mk_SuggestionsResponse (Py.slice_to limit suggestions) q)))
                (fun e =>
                   logger_error ("LLM suggestions failed: " ++ str_exn e) ;;;
                   ret None) ;;
        match r2 with
        | Some r => ret r
        | None =>
            let fallback := final_fallback q in
            ret (mk_SuggestionsResponse (Py.slice_to limit fallback) q)
        end
    end.

End Search.

(** [json.loads] played by the reference decoder. *)
Definition json_loads_ref (s : string) : result json :=
  match JsonRef.loads s with
  | Some v => Ok v
  | None => Raise (Exception "JSONDecodeError" "Expecting value")
  end.

(** ** The scenarios of the specification *)

Definition timed_out : exn := Exception "TimeoutException" "timed out".

(** The suggest source answers [["ignored", ["a","b","c"]]]. *)
Definition body_abc : string :=
  "[" ++ quoted "ignored" ++ ", [" ++ quoted "a" ++ "," ++ quoted "b" ++ ","
  ++ quoted "c" ++ "]]".

Definition env_suggest_abc : env :=
  mk_env (fun _ => HttpBody body_abc) (fun _ => ChatRaise timed_out).

(** The suggest source times out; the LLM answers [Suggestions: ["x","y"]]. *)
Definition text_xy : string :=
  "Suggestions: [" ++ quoted "x" ++ "," ++ quoted "y" ++ "]".

Definition env_llm_xy : env :=
  mk_env (fun _ => HttpRaise timed_out)
         (fun _ => ChatCompletion [Some text_xy]).

(** Both sources time out. *)
Definition env_down : env :=
  mk_env (fun _ => HttpRaise timed_out) (fun _ => ChatRaise timed_out).

(** The suggest source has nothing; the LLM answers an array without strings. *)
Definition env_numbers : env :=
  mk_env (fun _ => HttpBody "[1, []]")
         (fun _ => ChatCompletion [Some "[1, 2, null]"]).

(** The suggest source has nothing; the LLM answers text that is not JSON. *)
Definition env_garbled : env :=
  mk_env (fun _ => HttpBody "[1, []]")
         (fun _ => ChatCompletion [Some "[oops"]).

(** The suggest source has nothing; the LLM call times out. *)
Definition env_llm_down : env :=
  mk_env (fun _ => HttpBody "[1, []]") (fun _ => ChatRaise timed_out).



(** ** Facts on the built-ins *)

Example loads_ex1 :
  JsonRef.loads ("[" ++ quoted "ignored" ++ ", [" ++ quoted "a" ++ ","
                 ++ quoted "b" ++ "," ++ quoted "c" ++ "]]")
  = Some (JArr [JStr "ignored"; JArr [JStr "a"; JStr "b"; JStr "c"]]).
Proof. vm_compute. reflexivity. Qed.

Example strip_ex : Py.strip "  how to  " = "how to".
Proof. reflexivity. Qed.

Example find_ex : Py.find "so: [[1], 2] ok" "[" = 4.
Proof. reflexivity. Qed.

Example rfind_ex : Py.rfind "so: [[1], 2] ok" "]" = 11.
Proof. reflexivity. Qed.

Example str_slice_ex : Py.str_slice "so: [[1], 2] ok" 4 12 = "[[1], 2]".
Proof. reflexivity. Qed.

Example slice_to_ex :
  Py.slice_to 2 [1; 2; 3] = [1; 2] /\ Py.slice_to 7 [1; 2; 3] = [1; 2; 3]
  /\ Py.slice_to (-1) [1; 2; 3] = [1; 2] /\ Py.slice_to (-5) [1; 2; 3] = [].
Proof. repeat split. Qed.

Example str_of_int_ex : Py.str_of_int 10 = "10" /\ Py.str_of_int (-3) = "-3".
Proof. split; reflexivity. Qed.

Section PyFacts.

Context {A : Type}.

Lemma slice_to_nonneg (n : Z) (xs : list A) :
  0 <= n -> Py.slice_to n xs = firstn (Z.to_nat n) xs.
Proof.
  intros Hn. unfold Py.slice_to.
  destruct (Z.leb_spec 0 n); [reflexivity | lia].
Qed.

Lemma slice_to_length (n : Z) (xs : list A) :
  0 <= n -> Z.of_nat (List.length (Py.slice_to n xs)) <= n.
Proof.
  intros Hn. rewrite slice_to_nonneg by assumption.
  rewrite length_firstn. lia.
Qed.

Lemma slice_to_idem (n : Z) (xs : list A) :
  0 <= n -> Py.slice_to n (Py.slice_to n xs) = Py.slice_to n xs.
Proof.
  intros Hn. rewrite !slice_to_nonneg by assumption.
  rewrite firstn_firstn. f_equal. lia.
Qed.

Lemma slice_to_nil (n : Z) : Py.slice_to n (@nil A) = [].
Proof.
  unfold Py.slice_to. destruct (0 <=? n); apply firstn_nil.
Qed.

End PyFacts.

(** The guard of line 115 is decided by the trimmed length alone. *)
Lemma short_guard (q : string) :
  negb (Py.truthy q) || (Py.len (Py.strip q) <? 2) = (Py.len (Py.strip q) <? 2).
Proof.
  destruct q as [|c q]; reflexivity.
Qed.



Definition is_JStr (v : json) : bool :=
  match v with JStr _ => true | _ => false end.

(** [only_strings] is the filter on [isinstance(s, str)]: it keeps every
    string element, in the original order, and nothing else. *)
Lemma only_strings_filter (xs : list json) :
  map JStr (only_strings xs) = filter is_JStr xs.
Proof.
  induction xs as [|v xs IH]; [reflexivity|].
  destruct v; simpl; rewrite ?IH; reflexivity.
Qed.

(** ** Running the three functions *)

Section Runs.

Variable json_loads : string -> result json.

(** The suggest step issues its one request and nothing else; its result
    is decided by the answer to that request. *)
Lemma google_run (q : string) (limit : Z) (e : env) (t : trace) :
  _google_autocomplete json_loads q limit e t =
  (match http_get e (google_request q) with
   | HttpRaise x => Raise x
   | HttpBody text =>
       match json_loads text with
       | Ok data => Ok (google_items data limit)
       | Raise x => Raise x
       end
   end,
   (t ++ [EvHttpGet (google_request q)])%list).
Proof.
  unfold _google_autocomplete, client_get, bind, emit, lift, ret.
  destruct (http_get e (google_request q)) as [x|text]; [reflexivity|].
  destruct (json_loads text); reflexivity.
Qed.

(** The LLM step issues its one request and nothing else. *)
Lemma llm_run (q : string) (limit : Z) (e : env) (t : trace) :
  _llm_suggestions json_loads q limit e t =
  (match chat_create e (llm_request q limit) with
   | ChatRaise x => Raise x
   | ChatCompletion choices =>
       match first_content choices with
       | Ok c => Ok (llm_from_content json_loads q limit (normalise_content c))
       | Raise x => Raise x
       end
   end,
   (t ++ [EvChatCreate (llm_request q limit)])%list).
Proof.
  unfold _llm_suggestions, chat_completions_create, bind, emit, lift, ret.
  destruct (chat_create e (llm_request q limit)) as [x|choices]; [reflexivity|].
  destruct (first_content choices); reflexivity.
Qed.

Lemma gss_short (q : string) (limit : Z) (e : env) (t : trace) :
  Py.len (Py.strip q) < 2 ->
  get_search_suggestions json_loads q limit e t = (Ok (mk_SuggestionsResponse [] q), t).
Proof.
  intros Hshort. unfold get_search_suggestions.
  rewrite short_guard.
  destruct (Z.ltb_spec (Py.len (Py.strip q)) 2); [reflexivity | lia].
Qed.

(** Past the guard, the resolver is the chain of the two steps and the
    static list, each run at the trimmed query and the clamped limit. *)
Lemma gss_long (q : string) (limit : Z) (e : env) (t : trace) :
  2 <= Py.len (Py.strip q) ->
  let q' := Py.strip q in
  let eff := Z.max 1 (Z.min limit 10) in
  let llm_then := fun t1 : trace =>
    match _llm_suggestions json_loads q' eff e t1 with
    | (Ok sug, t2) => (Ok (mk_SuggestionsResponse (Py.slice_to eff sug) q'), t2)
    | (Raise y, t2) =>
        (Ok (mk_SuggestionsResponse (Py.slice_to eff (final_fallback q')) q'),
         (t2 ++ [EvLog ERROR ("LLM suggestions failed: " ++ str_exn y)])%list)
    end in
  get_search_suggestions json_loads q limit e t =
  match _google_autocomplete json_loads q' eff e t with
  | (Ok (s :: ss), t1) =>
      (Ok (mk_SuggestionsResponse (Py.slice_to eff (s :: ss)) q'), t1)
  | (Ok [], t1) => llm_then t1
  | (Raise x, t1) =>
      llm_then
        (t1 ++ [EvLog WARNING
                  ("Google suggest failed (fallback to LLM): " ++ str_exn x)])%list
  end.
Proof.
  intros Hlong q' eff llm_then. unfold get_search_suggestions.
  rewrite short_guard.
  destruct (Z.ltb_spec (Py.len (Py.strip q)) 2) as [Hlt|_]; [lia|].
  fold q' eff. subst llm_then.
  unfold bind at 1. unfold try_except at 1. unfold bind at 1.
  destruct (_google_autocomplete json_loads q' eff e t) as [[sug|x] t1].
  - destruct sug as [|s ss]; simpl.
    + unfold bind at 1. unfold try_except at 1. unfold bind at 1.
      destruct (_llm_suggestions json_loads q' eff e t1) as [[sug|y] t2];
        reflexivity.
    + reflexivity.
  - unfold logger_warning, bind, emit, ret, try_except.
    destruct (_llm_suggestions json_loads q' eff e _) as [[sug|y] t2];
      reflexivity.
Qed.

End Runs.

(** ** Properties of the resolver *)

(** C1. Whatever the query, the limit, the answers of the two sources and
    the decoder do, [get_search_suggestions] does not raise: it returns a
    [SuggestionsResponse], a list of strings paired with a query string. *)
Theorem C1_never_raises :
  forall (json_loads : string -> result json) (q : string) (limit : Z)
         (e : env) (t : trace),
  exists (r : SuggestionsResponse) (t' : trace),
    get_search_suggestions json_loads q limit e t = (Ok r, t').
Proof.
  intros json_loads q limit e t.
  destruct (Z.lt_ge_cases (Py.len (Py.strip q)) 2) as [Hshort|Hlong].
  - rewrite gss_short by assumption. eauto.
  - rewrite gss_long by assumption. cbv zeta.
    destruct (_google_autocomplete json_loads _ _ e t) as [[[|s ss]|x] t1].
    + destruct (_llm_suggestions json_loads _ _ e t1) as [[sug|y] t2]; eauto.
    + eauto.
    + destruct (_llm_suggestions json_loads _ _ e _) as [[sug|y] t2]; eauto.
Qed.

(** C2, as stated, fails: with limit 0 and both sources down the query
    "fish" gets one suggestion, more than the caller's limit. *)
Lemma C2_counterexample :
  fst (get_search_suggestions json_loads_ref "fish" 0 env_down [])
  = Ok (mk_SuggestionsResponse ["fish tutorial"] "fish")
  /\ ~ (Z.of_nat (List.length ["fish tutorial"]) <= 0).
Proof.
  split; [vm_compute; reflexivity | simpl; lia].
Qed.

(** C2, amended. For every query, limit and behaviour of the sources the
    response holds at most [max(1, min(limit, 10))] suggestions, hence at
    most [limit] of them whenever [limit >= 1]. *)
Theorem C2_length_le_effective_limit :
  forall (json_loads : string -> result json) (q : string) (limit : Z)
         (e : env) (t : trace),
  exists (r : SuggestionsResponse) (t' : trace),
    get_search_suggestions json_loads q limit e t = (Ok r, t')
    /\ Z.of_nat (List.length (suggestions r)) <= Z.max 1 (Z.min limit 10)
    /\ (1 <= limit -> Z.of_nat (List.length (suggestions r)) <= limit).
Proof.
  intros json_loads q limit e t.
  assert (Hle : forall xs : list string,
             Z.of_nat (List.length (Py.slice_to (Z.max 1 (Z.min limit 10)) xs))
             <= Z.max 1 (Z.min limit 10)) by (intros; apply slice_to_length; lia).
  assert (Hfin : forall r t',
             Z.of_nat (List.length (suggestions r)) <= Z.max 1 (Z.min limit 10) ->
             get_search_suggestions json_loads q limit e t = (Ok r, t') ->
             exists r0 t0,
               get_search_suggestions json_loads q limit e t = (Ok r0, t0)
               /\ Z.of_nat (List.length (suggestions r0)) <= Z.max 1 (Z.min limit 10)
               /\ (1 <= limit -> Z.of_nat (List.length (suggestions r0)) <= limit)).
  { intros r t' Hr Heq. exists r, t'. repeat split; [assumption | assumption | lia]. }
  destruct (Z.lt_ge_cases (Py.len (Py.strip q)) 2) as [Hshort|Hlong].
  - eapply Hfin; [|apply gss_short; assumption]. simpl. lia.
  - pose proof (gss_long json_loads q limit e t Hlong) as Hrun. cbv zeta in Hrun.
    destruct (_google_autocomplete json_loads _ _ e t) as [[[|s ss]|x] t1].
    + destruct (_llm_suggestions json_loads _ _ e t1) as [[sug|y] t2];
        (eapply Hfin; [|exact Hrun]); apply Hle.
    + eapply Hfin; [|exact Hrun]. apply Hle.
    + destruct (_llm_suggestions json_loads _ _ e _) as [[sug|y] t2];
        (eapply Hfin; [|exact Hrun]); apply Hle.
Qed.

(** The amended C2 at limit 2 with the three-element suggest answer. *)
Lemma C2_witness :
  exists (r : SuggestionsResponse) (t' : trace),
    get_search_suggestions json_loads_ref "cat" 2 env_suggest_abc [] = (Ok r, t')
    /\ Z.of_nat (List.length (suggestions r)) <= 2.
Proof.
  destruct (C2_length_le_effective_limit json_loads_ref "cat" 2 env_suggest_abc [])
    as (r & t' & Hrun & _ & Hlimit).
  exists r, t'. split; [exact Hrun | apply Hlimit; lia].
Defined.

(** C3. A query whose trimmed length is below 2 is answered with the empty
    list and the query as given; the trace is left as it was, so neither
    source is called and nothing is logged. *)
Theorem C3_short_query_bypasses_sources :
  forall (json_loads : string -> result json) (q : string) (limit : Z)
         (e : env) (t : trace),
  Py.len (Py.strip q) < 2 ->
  get_search_suggestions json_loads q limit e t
  = (Ok (mk_SuggestionsResponse [] q), t).
Proof.
  intros json_loads q limit e t Hshort.
  unfold get_search_suggestions. rewrite short_guard.
  destruct (Z.ltb_spec (Py.len (Py.strip q)) 2); [reflexivity | lia].
Qed.

(** C3 at the query [" f "], one character once trimmed. *)
Lemma C3_witness :
  Py.len (Py.strip " f ") < 2
  /\ get_search_suggestions json_loads_ref " f " 5 env_suggest_abc []
     = (Ok (mk_SuggestionsResponse [] " f "), []).
Proof.
  split.
  - vm_compute. reflexivity.
  - apply (C3_short_query_bypasses_sources json_loads_ref " f " 5 env_suggest_abc []).
    vm_compute. reflexivity.
Defined.

(** C4. Past the guard, a limit outside [1,10] is replaced by
    [max(1, min(limit, 10))], which lies in [1,10]: the resolver is the
    suggest step, the LLM step and the static list, each run at and cut to
    that limit, and the one chat request it may send asks for that many
    suggestions. *)
Theorem C4_effective_limit :
  forall (json_loads : string -> result json) (q : string) (limit : Z)
         (e : env) (t : trace),
  2 <= Py.len (Py.strip q) ->
  limit < 1 \/ 10 < limit ->
  let q' := Py.strip q in
  let eff := Z.max 1 (Z.min limit 10) in
  let llm_then := fun t1 : trace =>
    match _llm_suggestions json_loads q' eff e t1 with
    | (Ok sug, t2) => (Ok (mk_SuggestionsResponse (Py.slice_to eff sug) q'), t2)
    | (Raise y, t2) =>
        (Ok (mk_SuggestionsResponse (Py.slice_to eff (final_fallback q')) q'),
         (t2 ++ [EvLog ERROR ("LLM suggestions failed: " ++ str_exn y)])%list)
    end in
  eff = (if limit <? 1 then 1 else 10)
  /\ get_search_suggestions json_loads q limit e t =
     match _google_autocomplete json_loads q' eff e t with
     | (Ok (s :: ss), t1) =>
         (Ok (mk_SuggestionsResponse (Py.slice_to eff (s :: ss)) q'), t1)
     | (Ok [], t1) => llm_then t1
     | (Raise x, t1) =>
         llm_then
           (t1 ++ [EvLog WARNING
                     ("Google suggest failed (fallback to LLM): " ++ str_exn x)])%list
     end
  /\ (forall req : chat_request,
        In (EvChatCreate req)
           (snd (get_search_suggestions json_loads q limit e t)) ->
        In (EvChatCreate req) t \/ req = llm_request q' eff).
Proof.
  intros json_loads q limit e t Hlong Hout q' eff llm_then.
  split; [|split].
  - subst eff. destruct (Z.ltb_spec limit 1); lia.
  - apply gss_long. assumption.
  - intros req. rewrite gss_long by assumption. cbv zeta. fold q' eff.
    rewrite google_run.
    destruct (match http_get e (google_request q') with
              | HttpRaise x => Raise x
              | HttpBody text =>
                  match json_loads text with
                  | Ok data => Ok (google_items data eff)
                  | Raise x => Raise x
                  end
              end) as [[|s ss]|x];
      rewrite ?llm_run;
      repeat match goal with
             | |- context [match ?c with ChatRaise _ => _ | ChatCompletion _ => _ end] =>
                 destruct c
             | |- context [match first_content ?c with Ok _ => _ | Raise _ => _ end] =>
                 destruct (first_content c)
             end;
      cbn [snd]; rewrite ?in_app_iff; cbn [In];
      intros Hin;
      repeat match goal with
             | H : _ \/ _ |- _ => destruct H
             | H : False |- _ => destruct H
             | H : EvChatCreate _ = EvChatCreate _ |- _ => injection H as <-
             | H : _ = EvChatCreate _ |- _ => discriminate H
             end;
      auto.
Qed.

(** C4 at limit 25 with both sources down: the static list is cut at 10,
    so all five patterns come back. *)
Lemma C4_witness :
  2 <= Py.len (Py.strip "fish")
  /\ (25 < 1 \/ 10 < 25)
  /\ fst (get_search_suggestions json_loads_ref "fish" 25 env_down [])
     = Ok (mk_SuggestionsResponse
             ["fish tutorial"; "fish example"; "fish documentation";
              "how to fish"; "fish guide"] "fish").
Proof.
  assert (Hlong : 2 <= Py.len (Py.strip "fish")) by (vm_compute; discriminate).
  assert (Hout : 25 < 1 \/ 10 < 25) by (right; reflexivity).
  split; [exact Hlong | split; [exact Hout|]].
  destruct (C4_effective_limit json_loads_ref "fish" 25 env_down [] Hlong Hout)
    as (_ & Hrun & _).
  rewrite Hrun. vm_compute. reflexivity.
Defined.

(** The suggest step on an answer of the expected shape. *)
Lemma google_items_shape (d0 : json) (items rest : list json) (limit : Z) :
  google_items (JArr (d0 :: JArr items :: rest)) limit
  = Py.slice_to limit (only_strings items).
Proof.
  unfold google_items. cbn [List.length nth].
  destruct (Z.leb_spec 2 (Z.of_nat (S (S (List.length rest))))); [reflexivity | lia].
Qed.

(** Cutting a non-empty list at a positive limit leaves it non-empty. *)
Lemma slice_to_cons {A : Type} (n : Z) (x : A) (xs : list A) :
  1 <= n -> Py.slice_to n (x :: xs) = x :: Py.slice_to (n - 1) xs.
Proof.
  intros Hn. rewrite !slice_to_nonneg by lia.
  replace (Z.to_nat n) with (S (Z.to_nat (n - 1))) by lia. reflexivity.
Qed.

(** C5. For "cat" with limit 2 and the suggest answer
    [["ignored", ["a","b","c"]]] the response is [["a","b"]] with query
    "cat".  In general the suggest step returns the string elements of the
    second array element, in their order, cut at its limit; and when there
    is at least one, the resolver returns them cut at the effective limit,
    after the one request to the suggest source. *)
Theorem C5_suggest_step :
  get_search_suggestions json_loads_ref "cat" 2 env_suggest_abc []
  = (Ok (mk_SuggestionsResponse ["a"; "b"] "cat"),
     [EvHttpGet (google_request "cat")])
  /\ (forall (json_loads : string -> result json) (q : string) (limit : Z)
             (e : env) (t : trace) (text : string) (d0 : json)
             (items rest : list json),
        http_get e (google_request q) = HttpBody text ->
        json_loads text = Ok (JArr (d0 :: JArr items :: rest)) ->
        _google_autocomplete json_loads q limit e t
        = (Ok (Py.slice_to limit (only_strings items)),
           (t ++ [EvHttpGet (google_request q)])%list)
        /\ map JStr (only_strings items) = filter is_JStr items)
  /\ (forall (json_loads : string -> result json) (q : string) (limit : Z)
             (e : env) (t : trace) (text : string) (d0 : json)
             (items rest : list json),
        2 <= Py.len (Py.strip q) ->
        http_get e (google_request (Py.strip q)) = HttpBody text ->
        json_loads text = Ok (JArr (d0 :: JArr items :: rest)) ->
        only_strings items <> [] ->
        get_search_suggestions json_loads q limit e t
        = (Ok (mk_SuggestionsResponse
                 (firstn (Z.to_nat (Z.max 1 (Z.min limit 10))) (only_strings items))
                 (Py.strip q)),
           (t ++ [EvHttpGet (google_request (Py.strip q))])%list)).
Proof.
  split; [vm_compute; reflexivity | split].
  - intros json_loads q limit e t text d0 items rest Hget Hdata.
    split; [|apply only_strings_filter].
    rewrite google_run, Hget, Hdata, google_items_shape. reflexivity.
  - intros json_loads q limit e t text d0 items rest Hlong Hget Hdata Hsome.
    rewrite gss_long by assumption. cbv zeta.
    rewrite google_run, Hget, Hdata, google_items_shape.
    destruct (only_strings items) as [|s ss]; [congruence|].
    rewrite slice_to_cons by lia.
    rewrite <- (slice_to_cons (Z.max 1 (Z.min limit 10)) s ss) by lia.
    rewrite slice_to_idem by lia.
    rewrite slice_to_nonneg by lia. reflexivity.
Qed.

(** The general part of C5 at the scenario of the specification. *)
Lemma C5_witness :
  get_search_suggestions json_loads_ref "cat" 2 env_suggest_abc []
  = (Ok (mk_SuggestionsResponse (firstn 2 ["a"; "b"; "c"]) "cat"),
     [EvHttpGet (google_request "cat")]).
Proof.
  destruct C5_suggest_step as (_ & _ & Hgeneral).
  apply (Hgeneral json_loads_ref "cat" 2 env_suggest_abc [] body_abc
           (JStr "ignored") [JStr "a"; JStr "b"; JStr "c"] []).
  - vm_compute. discriminate.
  - reflexivity.
  - vm_compute. reflexivity.
  - discriminate.
Defined.






(** C7. With both sources raising, "fish" with limit 3 gets the first
    three patterns.  In general, when the suggest step and then the LLM
    step raise, the response is the five-pattern list built from the
    trimmed query, cut at the effective limit, and both failures are
    logged. *)
Theorem C7_static_fallback :
  fst (get_search_suggestions json_loads_ref "fish" 3 env_down [])
  = Ok (mk_SuggestionsResponse
          ["fish tutorial"; "fish example"; "fish documentation"] "fish")
  /\ (forall (json_loads : string -> result json) (q : string) (limit : Z)
             (e : env) (t t1 t2 : trace) (x y : exn),
        let q' := Py.strip q in
        let eff := Z.max 1 (Z.min limit 10) in
        let warned :=
          (t1 ++ [EvLog WARNING
                    ("Google suggest failed (fallback to LLM): " ++ str_exn x)])%list in
        2 <= Py.len q' ->
        _google_autocomplete json_loads q' eff e t = (Raise x, t1) ->
        _llm_suggestions json_loads q' eff e warned = (Raise y, t2) ->
        get_search_suggestions json_loads q limit e t
        = (Ok (mk_SuggestionsResponse
                 (firstn (Z.to_nat eff)
                    [q' ++ " tutorial"; q' ++ " example"; q' ++ " documentation";
                     "how to " ++ q'; q' ++ " guide"])
                 q'),
           (t2 ++ [EvLog ERROR ("LLM suggestions failed: " ++ str_exn y)])%list)).
Proof.
  split; [vm_compute; reflexivity|].
  intros json_loads q limit e t t1 t2 x y q' eff warned Hlong Hgoogle Hllm.
  rewrite gss_long by assumption. cbv zeta. fold q' eff.
  rewrite Hgoogle. fold warned. rewrite Hllm.
  rewrite slice_to_nonneg by (subst eff; lia). reflexivity.
Qed.

(** The general part of C7 at the scenario of the specification. *)
Lemma C7_witness :
  fst (get_search_suggestions json_loads_ref "fish" 3 env_down [])
  = Ok (mk_SuggestionsResponse
          (firstn 3 ["fish tutorial"; "fish example"; "fish documentation";
                     "how to fish"; "fish guide"]) "fish").
Proof.
  destruct C7_static_fallback as (_ & Hgeneral).
  erewrite (Hgeneral json_loads_ref "fish" 3 env_down []).
  - reflexivity.
  - vm_compute. discriminate.
  - reflexivity.
  - reflexivity.
Defined.

(** C8. The list built inside the LLM step is the resolver's own list cut
    at the same limit, so a response whose LLM text cannot be used as an
    array and a response whose LLM call raised carry the same suggestions
    and query, whatever the suggest source did. *)
Theorem C8_fallbacks_agree :
  (forall (q : string) (limit : Z),
     llm_fallback q limit = Py.slice_to limit (final_fallback q))
  /\ (forall (json_loads : string -> result json)
             (g : http_request -> http_outcome)
             (c1 c2 : chat_request -> chat_outcome)
             (q : string) (limit : Z) (t : trace)
             (c : option string) (rest : list (option string)) (y : exn),
        let q' := Py.strip q in
        let eff := Z.max 1 (Z.min limit 10) in
        c1 (llm_request q' eff) = ChatCompletion (c :: rest) ->
        (forall arr, llm_parse json_loads (normalise_content c) <> Ok (JArr arr)) ->
        c2 (llm_request q' eff) = ChatRaise y ->
        fst (get_search_suggestions json_loads q limit (mk_env g c1) t)
        = fst (get_search_suggestions json_loads q limit (mk_env g c2) t)).
Proof.
  split; [reflexivity|].
  intros json_loads g c1 c2 q limit t c rest y q' eff Hc1 Hparse Hc2.
  destruct (Z.lt_ge_cases (Py.len (Py.strip q)) 2) as [Hshort|Hlong].
  - rewrite !gss_short by assumption. reflexivity.
  - rewrite !gss_long by assumption. cbv zeta. fold q' eff.
    rewrite !google_run. cbn [http_get].
    assert (Hinline : llm_from_content json_loads q' eff (normalise_content c)
                      = Py.slice_to eff (final_fallback q')).
    { unfold llm_from_content.
      destruct (llm_parse json_loads (normalise_content c)) as [[]|] eqn:Hp;
        try reflexivity.
      exfalso. eapply Hparse. reflexivity. }
    destruct (match g (google_request q') with
              | HttpRaise x => Raise x
              | HttpBody text =>
                  match json_loads text with
                  | Ok data => Ok (google_items data eff)
                  | Raise x => Raise x
                  end
              end) as [[|s ss]|x];
      try reflexivity;
      rewrite !llm_run; cbn [chat_create]; rewrite Hc1, Hc2;
      cbn [first_content fst]; rewrite Hinline;
      rewrite slice_to_idem by (subst eff; lia); reflexivity.
Qed.

(** C8 on "fish" with limit 3: unusable LLM text against a failed call. *)
Lemma C8_witness :
  fst (get_search_suggestions json_loads_ref "fish" 3 env_garbled [])
  = fst (get_search_suggestions json_loads_ref "fish" 3 env_llm_down []).
Proof.
  destruct C8_fallbacks_agree as (_ & Hgeneral).
  apply (Hgeneral json_loads_ref (fun _ => HttpBody "[1, []]")
           (fun _ => ChatCompletion [Some "[oops"])
           (fun _ => ChatRaise timed_out)
           "fish" 3 [] (Some "[oops") [] timed_out).
  - reflexivity.
  - intros arr. vm_compute. discriminate.
  - reflexivity.
Defined.

(** The response, and the events added to the trace, are decided by the
    query, the limit and the two answers: not by the trace the call starts
    from, nor by anything else of the environment. *)
Lemma gss_frame (json_loads : string -> result json) (q : string) (limit : Z)
      (g : http_outcome) (c : chat_outcome) :
  exists (r : SuggestionsResponse) (evs : list event),
  forall (e : env) (t : trace),
    http_get e (google_request (Py.strip q)) = g ->
    chat_create e (llm_request (Py.strip q) (Z.max 1 (Z.min limit 10))) = c ->
    get_search_suggestions json_loads q limit e t = (Ok r, (t ++ evs)%list).
Proof.
  destruct (Z.lt_ge_cases (Py.len (Py.strip q)) 2) as [Hshort|Hlong].
  - exists (mk_SuggestionsResponse [] q), []. intros e t _ _.
    rewrite gss_short by assumption. rewrite app_nil_r. reflexivity.
  - set (q' := Py.strip q) in *. set (eff := Z.max 1 (Z.min limit 10)).
    destruct (match g with
              | HttpRaise x => Raise x
              | HttpBody text =>
                  match json_loads text with
                  | Ok data => Ok (google_items data eff)
                  | Raise x => Raise x
                  end
              end) as [[|s ss]|x] eqn:Hg;
      [ | do 2 eexists; intros e t Hget Hchat;
          rewrite gss_long by assumption; cbv zeta; fold q' eff;
          rewrite google_run, Hget, Hg; reflexivity | ];
      (destruct (match c with
                 | ChatRaise y => Raise y
                 | ChatCompletion choices =>
                     match first_content choices with
                     | Ok m =>
                         Ok (llm_from_content json_loads q' eff (normalise_content m))
                     | Raise y => Raise y
                     end
                 end) as [sug|y] eqn:Hc;
       do 2 eexists; intros e t Hget Hchat;
       rewrite gss_long by assumption; cbv zeta; fold q' eff;
       rewrite google_run, Hget, Hg; rewrite llm_run, Hchat, Hc;
       rewrite <- ?app_assoc; reflexivity).
Qed.

(** C9. Two invocations with the same query and limit, whose two sources
    answer alike, return the same response and add the same events,
    whatever traces they start from; and an invocation that starts from the
    trace its predecessor left returns that same response again. *)
Theorem C9_deterministic :
  forall (json_loads : string -> result json) (q : string) (limit : Z)
         (e1 e2 : env) (t1 t2 : trace),
  let q' := Py.strip q in
  let eff := Z.max 1 (Z.min limit 10) in
  http_get e1 (google_request q') = http_get e2 (google_request q') ->
  chat_create e1 (llm_request q' eff) = chat_create e2 (llm_request q' eff) ->
  exists (r : SuggestionsResponse) (evs : list event),
    get_search_suggestions json_loads q limit e1 t1 = (Ok r, (t1 ++ evs)%list)
    /\ get_search_suggestions json_loads q limit e2 t2 = (Ok r, (t2 ++ evs)%list)
    /\ get_search_suggestions json_loads q limit e1
         (snd (get_search_suggestions json_loads q limit e1 t1))
       = (Ok r, ((t1 ++ evs) ++ evs)%list).
Proof.
  intros json_loads q limit e1 e2 t1 t2 q' eff Hget Hchat.
  destruct (gss_frame json_loads q limit
              (http_get e1 (google_request q'))
              (chat_create e1 (llm_request q' eff))) as (r & evs & Hrun).
  exists r, evs.
  rewrite (Hrun e1 t1) by reflexivity.
  rewrite (Hrun e2 t2) by (symmetry; assumption).
  cbn [snd]. rewrite (Hrun e1 (t1 ++ evs)%list) by reflexivity.
  repeat split.
Qed.

(** C9 on a repeated call: "dog" with limit 5, started once from the empty
    trace and once from a trace that already holds a log record. *)
Lemma C9_witness :
  exists (r : SuggestionsResponse) (evs : list event),
    get_search_suggestions json_loads_ref "dog" 5 env_llm_xy []
    = (Ok r, ([] ++ evs)%list)
    /\ get_search_suggestions json_loads_ref "dog" 5 env_llm_xy
         [EvLog ERROR "earlier request"]
       = (Ok r, ([EvLog ERROR "earlier request"] ++ evs)%list).
Proof.
  destruct (C9_deterministic json_loads_ref "dog" 5 env_llm_xy env_llm_xy
              [] [EvLog ERROR "earlier request"] eq_refl eq_refl)
    as (r & evs & H1 & H2 & _).
  exists r, evs. split; assumption.
Defined.

(** C10. Past the guard, when the suggest step returns no suggestion and
    the LLM answers a text that decodes to an array without a string
    element, the response is the empty list: neither list of patterns is
    used, although the resolver's own would not have been empty, and no
    failure is logged. *)
Theorem C10_empty_llm_array :
  forall (json_loads : string -> result json) (q : string) (limit : Z)
         (e : env) (t t1 : trace) (c : option string)
         (rest : list (option string)) (arr : list json),
  let q' := Py.strip q in
  let eff := Z.max 1 (Z.min limit 10) in
  2 <= Py.len q' ->
  _google_autocomplete json_loads q' eff e t = (Ok [], t1) ->
  chat_create e (llm_request q' eff) = ChatCompletion (c :: rest) ->
  llm_parse json_loads (normalise_content c) = Ok (JArr arr) ->
  only_strings arr = [] ->
  get_search_suggestions json_loads q limit e t
  = (Ok (mk_SuggestionsResponse [] q'),
     (t1 ++ [EvChatCreate (llm_request q' eff)])%list)
  /\ Py.slice_to eff (final_fallback q') <> []
  /\ llm_fallback q' eff <> [].
Proof.
  intros json_loads q limit e t t1 c rest arr q' eff Hlong Hgoogle Hchat Hparse Hnone.
  assert (Heff : 1 <= eff) by (subst eff; lia).
  split; [|split].
  - rewrite gss_long by assumption. cbv zeta. fold q' eff.
    rewrite Hgoogle. rewrite llm_run, Hchat. cbn [first_content].
    unfold llm_from_content. rewrite Hparse, Hnone.
    rewrite !slice_to_nil. reflexivity.
  - unfold final_fallback. rewrite slice_to_cons by assumption. discriminate.
  - unfold llm_fallback. rewrite slice_to_cons by assumption. discriminate.
Qed.

(** C10 on "fish" with limit 3: an empty suggest answer and the LLM text
    [[1, 2, null]]. *)
Lemma C10_witness :
  fst (get_search_suggestions json_loads_ref "fish" 3 env_numbers [])
  = Ok (mk_SuggestionsResponse [] "fish").
Proof.
  destruct (C10_empty_llm_array json_loads_ref "fish" 3 env_numbers []
              [EvHttpGet (google_request "fish")]
              (Some "[1, 2, null]") []
              [JNum "1"; JNum "2"; JNull]) as (Hrun & _).
  - vm_compute. discriminate.
  - vm_compute. reflexivity.
  - reflexivity.
  - vm_compute. reflexivity.
  - reflexivity.
  - rewrite Hrun. reflexivity.
Defined.

(** ** Further properties of the three functions *)

(** *** Trimming *)

Lemma rstrip_idem (s : string) : Py.rstrip (Py.rstrip s) = Py.rstrip s.
Proof.
  induction s as [|c s IH]; [reflexivity|].
  simpl. destruct (Py.rstrip s) as [|d r] eqn:Hr.
  - destruct (Py.isspace c) eqn:Hc; [reflexivity|].
    simpl. rewrite Hc. reflexivity.
  - change (Py.rstrip (String c (String d r))) with
      (match Py.rstrip (String d r) with
       | EmptyString => if Py.isspace c then EmptyString else String c EmptyString
       | String a b => String c (String a b)
       end).
    rewrite IH. reflexivity.
Qed.

(** What [lstrip] leaves does not start with white space. *)
Lemma lstrip_head (s : string) :
  match Py.lstrip s with
  | EmptyString => True
  | String c _ => Py.isspace c = false
  end.
Proof.
  induction s as [|c s IH]; [exact I|].
  simpl. destruct (Py.isspace c) eqn:Hc; [exact IH | exact Hc].
Qed.

(** [rstrip] keeps a first character that is not white space. *)
Lemma lstrip_rstrip (s : string) :
  match s with
  | EmptyString => True
  | String c _ => Py.isspace c = false
  end ->
  Py.lstrip (Py.rstrip s) = Py.rstrip s.
Proof.
  destruct s as [|c s]; [reflexivity|]. intros Hc.
  simpl. destruct (Py.rstrip s); rewrite ?Hc; simpl; rewrite Hc; reflexivity.
Qed.

Lemma strip_idem (s : string) : Py.strip (Py.strip s) = Py.strip s.
Proof.
  unfold Py.strip.
  rewrite lstrip_rstrip by apply lstrip_head.
  apply rstrip_idem.
Qed.

(** X1. White space around a query that passes the guard is irrelevant:
    the call on the query and the call on the trimmed query return the
    same response and leave the same trace. *)
Theorem X1_surrounding_space_ignored :
  forall (json_loads : string -> result json) (q : string) (limit : Z)
         (e : env) (t : trace),
  2 <= Py.len (Py.strip q) ->
  get_search_suggestions json_loads q limit e t
  = get_search_suggestions json_loads (Py.strip q) limit e t.
Proof.
  intros json_loads q limit e t Hlong.
  rewrite (gss_long json_loads q limit e t) by assumption.
  rewrite (gss_long json_loads (Py.strip q) limit e t)
    by (rewrite strip_idem; assumption).
  cbv zeta. rewrite strip_idem. reflexivity.
Qed.

(** X1 on the query ["  fish "] with both sources down. *)
Lemma X1_witness :
  2 <= Py.len (Py.strip "  fish ")
  /\ get_search_suggestions json_loads_ref "  fish " 3 env_down []
     = get_search_suggestions json_loads_ref "fish" 3 env_down [].
Proof.
  assert (Hlong : 2 <= Py.len (Py.strip "  fish ")) by (vm_compute; discriminate).
  split; [exact Hlong|].
  exact (X1_surrounding_space_ignored json_loads_ref "  fish " 3 env_down [] Hlong).
Defined.

(** X2. The query echoed in the response is the query as given when its
    trimmed length is below 2 and the trimmed query otherwise, whatever
    the sources answer. *)
Theorem X2_echoed_query :
  forall (json_loads : string -> result json) (q : string) (limit : Z)
         (e : env) (t : trace),
  exists (r : SuggestionsResponse) (t' : trace),
    get_search_suggestions json_loads q limit e t = (Ok r, t')
    /\ query r = (if Py.len (Py.strip q) <? 2 then q else Py.strip q).
Proof.
  intros json_loads q limit e t.
  destruct (Z.ltb_spec (Py.len (Py.strip q)) 2) as [Hshort|Hlong].
  - rewrite gss_short by assumption. eauto.
  - rewrite gss_long by assumption. cbv zeta.
    destruct (_google_autocomplete json_loads _ _ e t) as [[[|s ss]|x] t1].
    + destruct (_llm_suggestions json_loads _ _ e t1) as [[sug|y] t2]; eauto.
    + eauto.
    + destruct (_llm_suggestions json_loads _ _ e _) as [[sug|y] t2]; eauto.
Qed.

(** *** The two steps on their own *)

(** The result of a step does not depend on the trace it starts from, and
    the step adds its one request to it. *)
Lemma google_frame (json_loads : string -> result json) (q : string) (limit : Z)
      (e : env) :
  exists r : result (list string),
  forall t : trace,
    _google_autocomplete json_loads q limit e t
    = (r, (t ++ [EvHttpGet (google_request q)])%list).
Proof.
  eexists. intros t. apply google_run.
Qed.

Lemma llm_frame (json_loads : string -> result json) (q : string) (limit : Z)
      (e : env) :
  exists r : result (list string),
  forall t : trace,
    _llm_suggestions json_loads q limit e t
    = (r, (t ++ [EvChatCreate (llm_request q limit)])%list).
Proof.
  eexists. intros t. apply llm_run.
Qed.

(** X3. A decoded suggest answer of any other shape than an array whose
    second element is an array (a scalar, an object, an array of fewer than
    two elements, a second element that is not an array) is not an error:
    the suggest step returns the empty list. *)
Theorem X3_suggest_other_shape_is_empty :
  forall (json_loads : string -> result json) (q : string) (limit : Z)
         (e : env) (t : trace) (text : string) (data : json),
  http_get e (google_request q) = HttpBody text ->
  json_loads text = Ok data ->
  (forall d0 items rest, data <> JArr (d0 :: JArr items :: rest)) ->
  _google_autocomplete json_loads q limit e t
  = (Ok [], (t ++ [EvHttpGet (google_request q)])%list).
Proof.
  intros json_loads q limit e t text data Hget Hdata Hshape.
  rewrite google_run, Hget, Hdata. do 2 f_equal.
  destruct data as [| | | |l|]; try reflexivity.
  destruct l as [|d0 [|d1 rest]]; try reflexivity.
  unfold google_items. cbn [List.length nth].
  destruct (2 <=? Z.of_nat (S (S (List.length rest)))); [|reflexivity].
  destruct d1; try reflexivity.
  exfalso. eapply Hshape. reflexivity.
Qed.

(** X3 on the answers [{}] and [["only"]]. *)
Lemma X3_witness :
  _google_autocomplete json_loads_ref "cat" 5
    (mk_env (fun _ => HttpBody "{}") (fun _ => ChatRaise timed_out)) []
  = (Ok [], [EvHttpGet (google_request "cat")])
  /\ _google_autocomplete json_loads_ref "cat" 5
       (mk_env (fun _ => HttpBody ("[" ++ quoted "only" ++ "]"))
               (fun _ => ChatRaise timed_out)) []
     = (Ok [], [EvHttpGet (google_request "cat")]).
Proof.
  split.
  - apply (X3_suggest_other_shape_is_empty json_loads_ref "cat" 5 _ []
             "{}" (JObj [])); [reflexivity | reflexivity | discriminate].
  - apply (X3_suggest_other_shape_is_empty json_loads_ref "cat" 5 _ []
             ("[" ++ quoted "only" ++ "]") (JArr [JStr "only"]));
      [reflexivity | reflexivity | discriminate].
Defined.

(** X4. The suggest step raises exactly when the request (or its status
    check) raised, or the body did not decode; it raises that exception. *)
Theorem X4_suggest_raises_iff :
  forall (json_loads : string -> result json) (q : string) (limit : Z)
         (e : env) (t : trace) (x : exn),
  fst (_google_autocomplete json_loads q limit e t) = Raise x
  <-> (http_get e (google_request q) = HttpRaise x
       \/ exists text : string,
            http_get e (google_request q) = HttpBody text
            /\ json_loads text = Raise x).
Proof.
  intros json_loads q limit e t x. rewrite google_run. cbn [fst].
  destruct (http_get e (google_request q)) as [x0|text] eqn:Hget.
  - split.
    + intros [= ->]. left. reflexivity.
    + intros [[= ->]|(text & Hbody & _)]; [reflexivity | discriminate].
  - destruct (json_loads text) as [data|x0] eqn:Hdata.
    + split; [discriminate|].
      intros [Hraise|(text' & [= <-] & Hdec)]; [discriminate | congruence].
    + split.
      * intros [= ->]. right. exists text. split; [reflexivity | assumption].
      * intros [Hraise|(text' & [= <-] & Hdec)]; [discriminate | congruence].
Qed.

(** X5. The LLM step raises what a failed chat call raised, and raises
    an [IndexError] when the completion has an empty list of choices.  When
    the list is not empty and the content of its first message is a string
    or [None], the step returns a list, whatever the content is and
    whatever the decoder does with it: a reply that does not decode never
    makes the step raise. *)
Theorem X5_llm_step_outcomes :
  forall (json_loads : string -> result json) (q : string) (limit : Z)
         (e : env) (t : trace),
  (forall y : exn,
     chat_create e (llm_request q limit) = ChatRaise y ->
     fst (_llm_suggestions json_loads q limit e t) = Raise y)
  /\ (chat_create e (llm_request q limit) = ChatCompletion [] ->
      fst (_llm_suggestions json_loads q limit e t)
      = Raise (Exception "IndexError" "list index out of range"))
  /\ (forall (c : option string) (rest : list (option string)),
        chat_create e (llm_request q limit) = ChatCompletion (c :: rest) ->
        exists sug : list string,
          fst (_llm_suggestions json_loads q limit e t) = Ok sug
          /\ (0 <= limit -> Z.of_nat (List.length sug) <= limit)).
Proof.
  intros json_loads q limit e t. rewrite llm_run. cbn [fst].
  split; [|split].
  - intros y Hchat. rewrite Hchat. reflexivity.
  - intros Hchat. rewrite Hchat. reflexivity.
  - intros c rest Hchat. rewrite Hchat. cbn [first_content].
    eexists. split; [reflexivity|].
    intros Hlimit. unfold llm_from_content, llm_fallback.
    destruct (llm_parse json_loads (normalise_content c)) as [[]|];
      apply slice_to_length; assumption.
Qed.

(** X5 on a reply that opens a bracket and never closes it. *)
Lemma X5_witness :
  exists sug : list string,
    fst (_llm_suggestions json_loads_ref "fish" 3 env_garbled []) = Ok sug
    /\ Z.of_nat (List.length sug) <= 3.
Proof.
  destruct (X5_llm_step_outcomes json_loads_ref "fish" 3 env_garbled [])
    as (_ & _ & Hlist).
  destruct (Hlist (Some "[oops") [] eq_refl) as (sug & Hrun & Hlen).
  exists sug. split; [exact Hrun | apply Hlen; discriminate].
Defined.

(** X6. When the trimmed reply does not start with an opening bracket and
    holds no opening bracket, or no closing bracket at or after the first
    opening one, nothing is decoded and the LLM step returns the empty
    list, not the patterns.  An absent or empty reply is such a case. *)
Theorem X6_llm_reply_without_brackets_is_empty :
  forall (json_loads : string -> result json) (q : string) (limit : Z)
         (e : env) (t : trace) (c : option string) (rest : list (option string)),
  let content := normalise_content c in
  chat_create e (llm_request q limit) = ChatCompletion (c :: rest) ->
  Py.startswith content "[" = false ->
  Py.find content "[" < 0 \/ Py.rfind content "]" < Py.find content "[" ->
  _llm_suggestions json_loads q limit e t
  = (Ok [], (t ++ [EvChatCreate (llm_request q limit)])%list).
Proof.
  intros json_loads q limit e t c rest content Hchat Hstart Hnone.
  assert (Hparse : llm_parse json_loads content = Ok (JArr [])).
  { unfold llm_parse. rewrite Hstart. cbv zeta.
    destruct (Z.leb_spec 0 (Py.find content "["));
      destruct (Z.ltb_spec (Py.find content "[") (Py.rfind content "]" + 1));
      try reflexivity; lia. }
  rewrite llm_run, Hchat. cbn [first_content]. fold content.
  unfold llm_from_content. rewrite Hparse. cbn [only_strings].
  rewrite slice_to_nil. reflexivity.
Qed.

(** X6 on an absent reply and on a reply in plain words. *)
Lemma X6_witness :
  fst (_llm_suggestions json_loads_ref "dog" 5
         (mk_env (fun _ => HttpRaise timed_out)
                 (fun _ => ChatCompletion [None])) [])
  = Ok []
  /\ fst (_llm_suggestions json_loads_ref "dog" 5
            (mk_env (fun _ => HttpRaise timed_out)
                    (fun _ => ChatCompletion [Some "I have no idea ]["])) [])
     = Ok [].
Proof.
  split.
  - rewrite (X6_llm_reply_without_brackets_is_empty json_loads_ref "dog" 5 _ []
               None []); [reflexivity | reflexivity | reflexivity |].
    left. vm_compute. reflexivity.
  - rewrite (X6_llm_reply_without_brackets_is_empty json_loads_ref "dog" 5 _ []
               (Some "I have no idea ][") []);
      [reflexivity | reflexivity | reflexivity |].
    right. vm_compute. reflexivity.
Defined.

(** X7. A reply that does not yield an array (the decoder raised, or the
    decoded value is not an array) is not an error of the LLM step: for a
    limit that is not negative it returns the first [limit] of the five
    patterns built from its query, and adds nothing but its request to
    the trace. *)
Theorem X7_llm_undecodable_reply_gives_patterns :
  forall (json_loads : string -> result json) (q : string) (limit : Z)
         (e : env) (t : trace) (c : option string) (rest : list (option string)),
  0 <= limit ->
  chat_create e (llm_request q limit) = ChatCompletion (c :: rest) ->
  (forall arr, llm_parse json_loads (normalise_content c) <> Ok (JArr arr)) ->
  _llm_suggestions json_loads q limit e t
  = (Ok (firstn (Z.to_nat limit)
           [q ++ " tutorial"; q ++ " example"; q ++ " documentation";
            "how to " ++ q; q ++ " guide"]),
     (t ++ [EvChatCreate (llm_request q limit)])%list).
Proof.
  intros json_loads q limit e t c rest Hlimit Hchat Hparse.
  rewrite llm_run, Hchat. cbn [first_content].
  unfold llm_from_content.
  destruct (llm_parse json_loads (normalise_content c)) as [[]|] eqn:Hp;
    try (unfold llm_fallback; rewrite slice_to_nonneg by assumption; reflexivity).
  exfalso. eapply Hparse. reflexivity.
Qed.

(** X7 on a reply that opens a bracket and never closes it. *)
Lemma X7_witness :
  _llm_suggestions json_loads_ref "fish" 2 env_garbled []
  = (Ok ["fish tutorial"; "fish example"],
     [EvChatCreate (llm_request "fish" 2)]).
Proof.
  apply (X7_llm_undecodable_reply_gives_patterns json_loads_ref "fish" 2
           env_garbled [] (Some "[oops") []).
  - discriminate.
  - reflexivity.
  - intros arr. vm_compute. discriminate.
Defined.

(** What either step returns at a limit that is not negative is already
    cut at that limit. *)
Lemma google_items_sliced (data : json) (limit : Z) :
  0 <= limit ->
  Py.slice_to limit (google_items data limit) = google_items data limit.
Proof.
  intros Hlimit. unfold google_items.
  destruct data as [| | | |l|]; try apply slice_to_nil.
  destruct (2 <=? Z.of_nat (List.length l)); [|apply slice_to_nil].
  destruct (nth 1 l JNull); try apply slice_to_nil.
  apply slice_to_idem. assumption.
Qed.

Lemma llm_from_content_sliced (json_loads : string -> result json)
      (q : string) (limit : Z) (content : string) :
  0 <= limit ->
  Py.slice_to limit (llm_from_content json_loads q limit content)
  = llm_from_content json_loads q limit content.
Proof.
  intros Hlimit. unfold llm_from_content, llm_fallback.
  destruct (llm_parse json_loads content) as [[]|];
    apply slice_to_idem; assumption.
Qed.

(** X8. Past the guard the resolver hands on what a step returned,
    unchanged: its own cut at the limit never removes anything.  The
    non-empty list of the suggest step is the response; failing that, the
    list of the LLM step is. *)
Theorem X8_step_result_returned_unchanged :
  forall (json_loads : string -> result json) (q : string) (limit : Z)
         (e : env) (t : trace),
  let q' := Py.strip q in
  let eff := Z.max 1 (Z.min limit 10) in
  2 <= Py.len q' ->
  (forall (s : string) (ss : list string) (t1 : trace),
     _google_autocomplete json_loads q' eff e t = (Ok (s :: ss), t1) ->
     get_search_suggestions json_loads q limit e t
     = (Ok (mk_SuggestionsResponse (s :: ss) q'), t1))
  /\ (forall (sug : list string) (t1 t2 : trace),
        _google_autocomplete json_loads q' eff e t = (Ok [], t1) ->
        _llm_suggestions json_loads q' eff e t1 = (Ok sug, t2) ->
        get_search_suggestions json_loads q limit e t
        = (Ok (mk_SuggestionsResponse sug q'), t2)).
Proof.
  intros json_loads q limit e t q' eff Hlong.
  assert (Heff : 0 <= eff) by (subst eff; lia).
  split.
  - intros s ss t1 Hgoogle.
    rewrite gss_long by assumption. cbv zeta. fold q' eff.
    rewrite Hgoogle. do 3 f_equal.
    rewrite google_run in Hgoogle.
    destruct (http_get e (google_request q')); [discriminate|].
    destruct (json_loads text) as [data|]; [|discriminate].
    injection Hgoogle as Hitems _. rewrite <- Hitems.
    apply google_items_sliced. assumption.
  - intros sug t1 t2 Hgoogle Hllm.
    rewrite gss_long by assumption. cbv zeta. fold q' eff.
    rewrite Hgoogle, Hllm. do 3 f_equal.
    rewrite llm_run in Hllm.
    destruct (chat_create e (llm_request q' eff)) as [|choices]; [discriminate|].
    destruct (first_content choices); [|discriminate].
    injection Hllm as Hsug _. rewrite <- Hsug.
    apply llm_from_content_sliced. assumption.
Qed.

(** X8 on the three-element suggest answer at limit 2. *)
Lemma X8_witness :
  get_search_suggestions json_loads_ref "cat" 2 env_suggest_abc []
  = (Ok (mk_SuggestionsResponse ["a"; "b"] "cat"),
     [EvHttpGet (google_request "cat")]).
Proof.
  assert (Hlong : 2 <= Py.len (Py.strip "cat")) by (vm_compute; discriminate).
  destruct (X8_step_result_returned_unchanged json_loads_ref "cat" 2
              env_suggest_abc [] Hlong) as (Hsuggest & _).
  apply Hsuggest. vm_compute. reflexivity.
Defined.

(** *** The resolver as a whole *)

(** X9. Past the guard, an empty response can only come from the LLM
    step: if the suggestions are empty, the suggest step gave no suggestion
    (it raised or returned the empty list) and the LLM step was run and
    returned the empty list, so it did not raise. *)
Theorem X9_empty_response_comes_from_llm :
  forall (json_loads : string -> result json) (q : string) (limit : Z)
         (e : env) (t t' : trace) (r : SuggestionsResponse),
  let q' := Py.strip q in
  let eff := Z.max 1 (Z.min limit 10) in
  2 <= Py.len q' ->
  get_search_suggestions json_loads q limit e t = (Ok r, t') ->
  suggestions r = [] ->
  exists t1 : trace,
    _llm_suggestions json_loads q' eff e t1 = (Ok [], t')
    /\ forall s ss, fst (_google_autocomplete json_loads q' eff e t) <> Ok (s :: ss).
Proof.
  intros json_loads q limit e t t' r q' eff Hlong Hrun Hempty.
  assert (Heff : 1 <= eff) by (subst eff; lia).
  assert (Hcut : forall xs : list string, Py.slice_to eff xs = [] -> xs = []).
  { intros [|x xs]; [reflexivity|]. rewrite slice_to_cons by assumption. discriminate. }
  rewrite gss_long in Hrun by assumption. cbv zeta in Hrun. fold q' eff in Hrun.
  destruct (_google_autocomplete json_loads q' eff e t) as [[[|s ss]|x] t1] eqn:Hgoogle.
  - destruct (_llm_suggestions json_loads q' eff e t1) as [[sug|y] t2] eqn:Hllm;
      injection Hrun as <- <-; cbn [suggestions] in Hempty; apply Hcut in Hempty.
    + subst sug. exists t1. split; [assumption | discriminate].
    + unfold final_fallback in Hempty. discriminate.
  - injection Hrun as <- <-. cbn [suggestions] in Hempty.
    apply Hcut in Hempty. discriminate.
  - destruct (_llm_suggestions json_loads q' eff e _) as [[sug|y] t2] eqn:Hllm;
      injection Hrun as <- <-; cbn [suggestions] in Hempty; apply Hcut in Hempty.
    + subst sug. eexists. split; [exact Hllm | discriminate].
    + unfold final_fallback in Hempty. discriminate.
Qed.

(** X9 on an empty suggest answer and an LLM array without strings. *)
Lemma X9_witness :
  exists t1 : trace,
    _llm_suggestions json_loads_ref "fish" 3 env_numbers t1
    = (Ok [], [EvHttpGet (google_request "fish");
               EvChatCreate (llm_request "fish" 3)]).
Proof.
  assert (Hlong : 2 <= Py.len (Py.strip "fish")) by (vm_compute; discriminate).
  destruct (X9_empty_response_comes_from_llm json_loads_ref "fish" 3 env_numbers
              [] [EvHttpGet (google_request "fish");
                  EvChatCreate (llm_request "fish" 3)]
              (mk_SuggestionsResponse [] "fish") Hlong)
    as (t1 & Hllm & _).
  - vm_compute. reflexivity.
  - reflexivity.
  - exists t1. exact Hllm.
Defined.

(** Picks the disjunct that holds by computation, up to two existential
    witnesses. *)
Ltac pick_shape :=
  let leaf := first [ reflexivity
                    | eexists; reflexivity
                    | do 2 eexists; reflexivity ] in
  repeat match goal with
         | |- _ \/ _ => first [ left; solve [leaf] | right ]
         end;
  leaf.

(** X10. Past the guard a call adds to the trace one of five sequences of
    events: the suggest request alone; the suggest request and the chat
    request; these two followed by an error record; the suggest request, a
    warning record and the chat request; or these three followed by an
    error record.  So each source is contacted at most once, the suggest
    source always and first, and a record is logged only right after the
    request that failed. *)
Theorem X10_trace_shapes :
  forall (json_loads : string -> result json) (q : string) (limit : Z)
         (e : env) (t : trace),
  let q' := Py.strip q in
  let eff := Z.max 1 (Z.min limit 10) in
  let H := EvHttpGet (google_request q') in
  let C := EvChatCreate (llm_request q' eff) in
  let W := fun x => EvLog WARNING ("Google suggest failed (fallback to LLM): " ++ str_exn x) in
  let E := fun y => EvLog ERROR ("LLM suggestions failed: " ++ str_exn y) in
  2 <= Py.len q' ->
  exists evs : list event,
    snd (get_search_suggestions json_loads q limit e t) = (t ++ evs)%list
    /\ (evs = [H]
        \/ evs = [H; C]
        \/ (exists y, evs = [H; C; E y])
        \/ (exists x, evs = [H; W x; C])
        \/ (exists x y, evs = [H; W x; C; E y])).
Proof.
  intros json_loads q limit e t q' eff H C W E Hlong.
  subst H C W E. cbv beta.
  destruct (google_frame json_loads q' eff e) as (rg & Hg).
  destruct (llm_frame json_loads q' eff e) as (rl & Hl).
  rewrite gss_long by assumption. cbv zeta. fold q' eff.
  rewrite Hg. destruct rg as [[|s ss]|x]; rewrite ?Hl.
  - destruct rl as [sug|y]; cbn [snd]; rewrite <- ?app_assoc;
      eexists; (split; [reflexivity|]); cbn [app]; pick_shape.
  - cbn [snd]. eexists. split; [reflexivity|]. pick_shape.
  - destruct rl as [sug|y]; cbn [snd]; rewrite <- ?app_assoc;
      eexists; (split; [reflexivity|]); cbn [app]; pick_shape.
Qed.

(** X10 on "dog" with the suggest source down and the LLM answering. *)
Lemma X10_witness :
  exists evs : list event,
    snd (get_search_suggestions json_loads_ref "dog" 5 env_llm_xy [])
    = ([] ++ evs)%list
    /\ List.length evs = 3%nat.
Proof.
  assert (Hlong : 2 <= Py.len (Py.strip "dog")) by (vm_compute; discriminate).
  destruct (X10_trace_shapes json_loads_ref "dog" 5 env_llm_xy [] Hlong)
    as (evs & Hrun & Hshape).
  exists evs. split; [exact Hrun|].
  assert (Hevs : snd (get_search_suggestions json_loads_ref "dog" 5 env_llm_xy [])
                 = [EvHttpGet (google_request "dog");
                    EvLog WARNING "Google suggest failed (fallback to LLM): timed out";
                    EvChatCreate (llm_request "dog" 5)]) by (vm_compute; reflexivity).
  rewrite Hevs in Hrun. cbn [app] in Hrun. subst evs. reflexivity.
Defined.

(** X11. Past the guard a warning is logged exactly when the suggest step
    raised, and an error exactly when the suggest step gave no suggestion
    and the LLM step raised; each record carries the message of the
    exception. *)
Theorem X11_log_records :
  forall (json_loads : string -> result json) (q : string) (limit : Z)
         (e : env) (t : trace),
  let q' := Py.strip q in
  let eff := Z.max 1 (Z.min limit 10) in
  2 <= Py.len q' ->
  exists evs : list event,
    snd (get_search_suggestions json_loads q limit e t) = (t ++ evs)%list
    /\ (forall msg : string,
          In (EvLog WARNING msg) evs
          <-> exists x,
                fst (_google_autocomplete json_loads q' eff e t) = Raise x
                /\ msg = "Google suggest failed (fallback to LLM): " ++ str_exn x)
    /\ (forall msg : string,
          In (EvLog ERROR msg) evs
          <-> exists y,
                (forall s ss,
                   fst (_google_autocomplete json_loads q' eff e t) <> Ok (s :: ss))
                /\ fst (_llm_suggestions json_loads q' eff e t) = Raise y
                /\ msg = "LLM suggestions failed: " ++ str_exn y).
Proof.
  intros json_loads q limit e t q' eff Hlong.
  destruct (google_frame json_loads q' eff e) as (rg & Hg).
  destruct (llm_frame json_loads q' eff e) as (rl & Hl).
  rewrite gss_long by assumption. cbv zeta. fold q' eff.
  rewrite !Hg, !Hl. cbn [fst].
  destruct rg as [[|s ss]|x]; rewrite ?Hl; destruct rl as [sug|y];
    cbn [snd]; rewrite <- ?app_assoc;
    eexists; (split; [reflexivity|]); cbn [In app];
    (split; intros msg; (split;
     [ intros Hin;
       repeat match goal with
              | Hor : _ \/ _ |- _ => destruct Hor
              | Hf : False |- _ => destruct Hf
              | Heq : EvLog _ _ = EvLog _ _ |- _ => injection Heq as <-
              | Heq : _ = EvLog _ _ |- _ => discriminate Heq
              end;
       eexists; repeat split; discriminate
     | intros Hex;
       repeat match goal with
              | Hx : exists _, _ |- _ => destruct Hx
              | Hx : _ /\ _ |- _ => destruct Hx
              | Heq : Raise _ = Raise _ |- _ => injection Heq as <-
              | Heq : Ok _ = Raise _ |- _ => discriminate Heq
              | Hne : forall s ss, Ok _ <> Ok (s :: ss) |- _ =>
                  exfalso; eapply Hne; reflexivity
              end;
       subst; auto 10 ])).
Qed.

(** X11 on "dog" with the suggest source down and the LLM answering: the
    warning is in the trace, and no error is. *)
Lemma X11_witness :
  In (EvLog WARNING "Google suggest failed (fallback to LLM): timed out")
     (snd (get_search_suggestions json_loads_ref "dog" 5 env_llm_xy []))
  /\ forall msg : string,
       ~ In (EvLog ERROR msg)
            (snd (get_search_suggestions json_loads_ref "dog" 5 env_llm_xy [])).
Proof.
  assert (Hlong : 2 <= Py.len (Py.strip "dog")) by (vm_compute; discriminate).
  destruct (X11_log_records json_loads_ref "dog" 5 env_llm_xy [] Hlong)
    as (evs & Hrun & Hwarn & Herr).
  rewrite Hrun. cbn [app]. split.
  - apply Hwarn. exists timed_out. split; reflexivity.
  - intros msg Hin. apply Herr in Hin. destruct Hin as (y & _ & Hraise & _).
    vm_compute in Hraise. discriminate Hraise.
Defined.

(** X12. Past the guard, whenever the suggest step gives no suggestion
    (it raised, or returned the empty list) and the LLM step raises, the
    response is the five patterns of the trimmed query cut at the
    effective limit: [min(max(1, limit), 5)] suggestions, never none. *)
Theorem X12_patterns_when_llm_fails :
  forall (json_loads : string -> result json) (q : string) (limit : Z)
         (e : env) (t : trace) (y : exn),
  let q' := Py.strip q in
  let eff := Z.max 1 (Z.min limit 10) in
  2 <= Py.len q' ->
  (forall s ss, fst (_google_autocomplete json_loads q' eff e t) <> Ok (s :: ss)) ->
  fst (_llm_suggestions json_loads q' eff e t) = Raise y ->
  exists r : SuggestionsResponse,
    fst (get_search_suggestions json_loads q limit e t) = Ok r
    /\ suggestions r
       = firstn (Z.to_nat eff)
           [q' ++ " tutorial"; q' ++ " example"; q' ++ " documentation";
            "how to " ++ q'; q' ++ " guide"]
    /\ query r = q'
    /\ Z.of_nat (List.length (suggestions r)) = Z.min (Z.max 1 limit) 5.
Proof.
  intros json_loads q limit e t y q' eff Hlong Hnone Hraise.
  destruct (google_frame json_loads q' eff e) as (rg & Hg).
  destruct (llm_frame json_loads q' eff e) as (rl & Hl).
  rewrite Hg in Hnone. rewrite Hl in Hraise. cbn [fst] in Hnone, Hraise. subst rl.
  rewrite gss_long by assumption. cbv zeta. fold q' eff.
  rewrite Hg.
  assert (Hcount :
            Z.of_nat (List.length
                        (firstn (Z.to_nat eff)
                           [q' ++ " tutorial"; q' ++ " example";
                            q' ++ " documentation"; "how to " ++ q';
                            q' ++ " guide"]))
            = Z.min (Z.max 1 limit) 5).
  { rewrite length_firstn. cbn [List.length]. subst eff. lia. }
  destruct rg as [[|s ss]|x].
  - rewrite Hl. cbn [fst]. eexists. split; [reflexivity|].
    cbn [suggestions query]. unfold final_fallback.
    rewrite slice_to_nonneg by (subst eff; lia).
    split; [reflexivity | split; [reflexivity | exact Hcount]].
  - exfalso. eapply Hnone. reflexivity.
  - rewrite Hl. cbn [fst]. eexists. split; [reflexivity|].
    cbn [suggestions query]. unfold final_fallback.
    rewrite slice_to_nonneg by (subst eff; lia).
    split; [reflexivity | split; [reflexivity | exact Hcount]].
Qed.

(** X12 with an empty suggest answer and the LLM call timing out, at
    limit 7: all five patterns. *)
Lemma X12_witness :
  exists r : SuggestionsResponse,
    fst (get_search_suggestions json_loads_ref "fish" 7 env_llm_down []) = Ok r
    /\ Z.of_nat (List.length (suggestions r)) = 5.
Proof.
  assert (Hlong : 2 <= Py.len (Py.strip "fish")) by (vm_compute; discriminate).
  destruct (X12_patterns_when_llm_fails json_loads_ref "fish" 7 env_llm_down []
              timed_out Hlong) as (r & Hrun & _ & _ & Hcount).
  - intros s ss. vm_compute. discriminate.
  - vm_compute. reflexivity.
  - exists r. split; [exact Hrun | exact Hcount].
Defined.


